(** * ImageUploadButton: the image selection, validation and encoding flow

    A shallow embedding of
    [external/aiqtoolkit-opensource-ui/components/Chat/ImageUploadButton.tsx].

    The component is event driven: its two handlers, [triggerFileUpload] and
    [handleFileChange], and the [onload] closure it installs on a
    [FileReader], run to completion on the UI thread and act on the host
    page only through [alert], [HTMLInputElement.click],
    [FileReader.readAsDataURL], the assignment [e.target.value = ''] and the
    caller's [onImageSelect].  Each handler is a function [World -> World],
    where a [World] records the hidden file input and the trace of those
    effects. *)

From Stdlib Require Import ZArith Ascii String List Bool Lia.
Import ListNotations.
Open Scope string_scope.
Open Scope Z_scope.

(** ** The JavaScript string operations the component uses *)

Module JS.

(** [s.split(sep)] for a separator of one character: the pieces between
    the occurrences of [sep], so never an empty array.  The separator used
    by the component is ['/'], one code unit in UTF-16 and one byte in
    UTF-8, never part of a longer UTF-8 sequence: splitting the bytes
    gives the pieces of the JavaScript string. *)
Fixpoint split (sep : ascii) (s : string) : list string :=
  match s with
  | EmptyString => [EmptyString]
  | String c rest =>
      if Ascii.eqb c sep then EmptyString :: split sep rest
      else match split sep rest with
           | [] => [String c EmptyString]
           | piece :: pieces => String c piece :: pieces
           end
  end.

(** [s.startsWith(p)]. *)
Definition startsWith (p s : string) : bool := String.prefix p s.

(** [s.includes(sub)]: [sub] starts at some position of [s]. *)
Fixpoint includes (sub s : string) : bool :=
  String.prefix sub s
  || match s with
     | EmptyString => false
     | String _ rest => includes sub rest
     end.

(** Truthiness of a value that is a string, [null] or [undefined]
    ([None]): only a non-empty string is truthy. *)
Definition truthy (v : option string) : bool :=
  match v with
  | Some (String _ _) => true
  | Some EmptyString => false
  | None => false
  end.

(** [a !== b] on values that are a string or [undefined]. *)
Definition strict_neq (a b : option string) : bool :=
  match a, b with
  | Some x, Some y => negb (String.eqb x y)
  | None, None => false
  | _, _ => true
  end.

End JS.

(** ** The host page *)

(** A [File]: the attributes of the handle the component reads. *)
Record File := mkFile {
  name : string;   (* file.name, as the picker reports it *)
  type : string;   (* file.type, the declared MIME type *)
  size : Z         (* file.size, in bytes *)
}.

(** The hidden [<input type="file">].  [files] is [e.target.files]
    ([FileList | null]); its [value] is read through [value] below. *)
Record HTMLInputElement := mkInput {
  files : option (list File)
}.

(** A [FileReader] on which [readAsDataURL] has been called and whose
    [load] event is still to come: the blob being read, and the [file] the
    [onload] closure of [handleFileChange] has captured. *)
Record FileReader := mkReader {
  blob : File;
  onload_file : File
}.

Record World := mkWorld {
  input : HTMLInputElement;           (* the input element, which is e.target *)
  mounted : bool;                     (* fileInputRef.current is not null *)
  picker_open : bool;                 (* the file-selection surface is showing *)
  picker_opened : nat;                (* how many times it has been opened *)
  alerts : list string;               (* the alert() calls, oldest first *)
  readers : list FileReader;          (* reads in flight *)
  calls : list (File * string)        (* the onImageSelect calls, oldest first *)
}.

Module Dom.

(** The getter of [input.value] of a file input: [C:\fakepath\] followed
    by the name of the first selected file, the empty string when no file
    is selected. *)
Definition fakepath (f : File) : string := "C:\fakepath\" ++ name f.

Definition value (el : HTMLInputElement) : string :=
  match files el with
  | Some (f :: _) => fakepath f
  | Some [] => ""
  | None => ""
  end.

(** [input.value = '']: the assignment empties the list of selected
    files. *)
Definition clear_value (w : World) : World :=
  mkWorld (mkInput (Some [])) (mounted w) (picker_open w) (picker_opened w)
          (alerts w) (readers w) (calls w).

(** [alert(msg)]. *)
Definition alert (msg : string) (w : World) : World :=
  mkWorld (input w) (mounted w) (picker_open w) (picker_opened w)
          (alerts w ++ [msg]) (readers w) (calls w).

(** [input.click()] on a file input: the file-selection surface opens. *)
Definition click (w : World) : World :=
  mkWorld (input w) (mounted w) true (S (picker_opened w))
          (alerts w) (readers w) (calls w).

(** [reader.readAsDataURL(file)]: the read is started and the reader
    waits for its [load] event. *)
Definition readAsDataURL (r : FileReader) (w : World) : World :=
  mkWorld (input w) (mounted w) (picker_open w) (picker_opened w)
          (alerts w) (readers w ++ [r]) (calls w).

(** The caller's [onImageSelect(file, base64Content)], as the trace of its
    invocations. *)
Definition onImageSelect (file : File) (base64Content : string) (w : World)
  : World :=
  mkWorld (input w) (mounted w) (picker_open w) (picker_opened w)
          (alerts w) (readers w) (calls w ++ [(file, base64Content)]).

End Dom.

(** ** The component *)

Record Props := mkProps {
  disabled : bool
}.

Module ImageUploadButton.

Definition alert_unsupported : string := "只支持图片文件".
Definition alert_too_large : string := "文件大小不能超过2MB".

(** [const triggerFileUpload = () => { if (disabled) return;
    fileInputRef.current?.click(); }] *)
Definition triggerFileUpload (props : Props) (w : World) : World :=
  if disabled props then w
  else if mounted w then Dom.click w
  else w.

(** [const [fileType] = file.type.split('/')]: the first piece, or
    [undefined] for an empty array. *)
Definition fileType (file : File) : option string :=
  hd_error (JS.split "/" (type file)).

(** [reader.onload = (loadEvent) => { ... }], with the [file] of the
    enclosing call; [result] is [loadEvent.target?.result], [None] when it
    is [null] or [undefined]. *)
Definition reader_onload (file : File) (result : option string) (w : World)
  : World :=
  let fullBase64String := result in
  if JS.truthy fullBase64String then
    match fullBase64String with
    | Some s => Dom.onImageSelect file s w
    | None => w
    end
  else w.

(** [const handleFileChange = (e) => { ... }], [e.target] being the
    input element of the world. *)
Definition handleFileChange (w : World) : World :=
  let file :=
    match files (input w) with              (* e.target.files?.[0] *)
    | Some fs => nth_error fs 0
    | None => None
    end in
  match file with
  | None => w                               (* if (!file) return *)
  | Some file =>
      if JS.strict_neq (fileType file) (Some "image") then
        Dom.alert alert_unsupported w
      else if size file >? 2 * 1024 * 1024 then
        Dom.alert alert_too_large w
      else
        let reader := mkReader file file in
        let w := Dom.readAsDataURL reader w in
        Dom.clear_value w                   (* e.target.value = '' *)
  end.

End ImageUploadButton.

(** ** The browser around the component

    What the host does with the handlers: a click on the trigger button
    runs [triggerFileUpload]; a choice made in the file-selection surface
    raises [change] on the input only when the selection differs from the
    one the input holds (the reason for the reset at the end of
    [handleFileChange], as its comment says); a finished read raises [load]
    on its reader, once. *)

Module Browser.

Import ImageUploadButton.

Definition File_eqb (a b : File) : bool :=
  String.eqb (name a) (name b)
  && String.eqb (type a) (type b)
  && (size a =? size b).

Fixpoint selection_eqb (l1 l2 : list File) : bool :=
  match l1, l2 with
  | [], [] => true
  | a :: l1', b :: l2' => File_eqb a b && selection_eqb l1' l2'
  | _, _ => false
  end.

(** Whether choosing [chosen] raises [change]: not when the input already
    holds that selection. *)
Definition changeFires (chosen : list File) (w : World) : bool :=
  match files (input w) with
  | Some held => negb (selection_eqb held chosen)
  | None => negb (selection_eqb [] chosen)
  end.

Definition select (fs : option (list File)) (w : World) : World :=
  mkWorld (mkInput fs) (mounted w) (picker_open w) (picker_opened w)
          (alerts w) (readers w) (calls w).

Definition closePicker (w : World) : World :=
  mkWorld (input w) (mounted w) false (picker_opened w)
          (alerts w) (readers w) (calls w).

(** The user confirms the file-selection surface with [chosen]; nothing
    can be chosen while the surface is closed. *)
Definition userPicks (chosen : list File) (w : World) : World :=
  if picker_open w then
    let w := closePicker w in
    if changeFires chosen w then handleFileChange (select (Some chosen) w)
    else w
  else w.

(** A [change] event dispatched on the input by a script or a test, with
    the given [files], whatever the surface shows. *)
Definition dispatchChange (fs : option (list File)) (w : World) : World :=
  handleFileChange (select fs w).

Definition drop_reader (i : nat) (w : World) : World :=
  mkWorld (input w) (mounted w) (picker_open w) (picker_opened w)
          (alerts w) (firstn i (readers w) ++ skipn (S i) (readers w))
          (calls w).

(** The read of the [i]-th reader in flight finishes with [result]: its
    [onload] runs, and the reader is done. *)
Definition fireLoad (i : nat) (result : option string) (w : World) : World :=
  match nth_error (readers w) i with
  | Some r => reader_onload (onload_file r) result (drop_reader i w)
  | None => w
  end.

Inductive Event :=
| EvClick
| EvPick (chosen : list File)
| EvChange (fs : option (list File))
| EvLoad (i : nat) (result : option string).

Definition step (props : Props) (ev : Event) (w : World) : World :=
  match ev with
  | EvClick => triggerFileUpload props w
  | EvPick chosen => userPicks chosen w
  | EvChange fs => dispatchChange fs w
  | EvLoad i result => fireLoad i result w
  end.

Fixpoint run (props : Props) (evs : list Event) (w : World) : World :=
  match evs with
  | [] => w
  | ev :: evs' => run props evs' (step props ev w)
  end.


(** The page after mounting: nothing selected, surface closed. *)
Definition initial : World :=
  mkWorld (mkInput (Some [])) true false 0 [] [] [].

End Browser.

(** The result of a read, as the File API delivers it:
    [data:<mime>;base64,<payload>]. *)
Definition isDataURL (s : string) : bool :=
  JS.startsWith "data:" s && JS.includes ";base64," s.

(** A string without a slash: the shape of a MIME primary category. *)
Fixpoint no_slash (s : string) : bool :=
  match s with
  | EmptyString => true
  | String c rest => negb (Ascii.eqb c "/") && no_slash rest
  end.

(** ** Sample files *)

Definition png_500k : File := mkFile "board.png" "image/png" 512000.
Definition txt_10k : File := mkFile "notes.txt" "text/plain" 10240.
Definition jpeg_3m : File := mkFile "photo.jpg" "image/jpeg" 3145728.
Definition txt_3m : File := mkFile "dump.txt" "text/plain" 3145728.
Definition png_exact : File := mkFile "edge.png" "image/png" 2097152.
Definition png_over : File := mkFile "over.png" "image/png" 2097153.
Definition png_url : string := "data:image/png;base64,iVBORw0KGgo=".

Definition resized (sz : Z) (f : File) : File := mkFile (name f) (type f) sz.

Import ImageUploadButton.

(** ** What the component renders *)

(** The props as the parent passes them: [disabled?] and [className?] may
    be left out ([None] is [undefined]). *)
Record ImageUploadButtonProps := mkButtonProps {
  disabled_prop : option bool;
  className_prop : option string
}.

Module Render.

(** [({ onImageSelect, disabled = false, className = '' })]: the defaults
    of the destructured parameter. *)
Definition disabledOf (p : ImageUploadButtonProps) : bool :=
  match disabled_prop p with
  | Some b => b
  | None => false
  end.

Definition classNameOf (p : ImageUploadButtonProps) : string :=
  match className_prop p with
  | Some c => c
  | None => ""
  end.

Definition propsOf (p : ImageUploadButtonProps) : Props :=
  mkProps (disabledOf p).

(** [const [isHovered, setIsHovered] = useState(false)], with
    [onMouseEnter={() => setIsHovered(true)}] and
    [onMouseLeave={() => setIsHovered(false)}].  A [HandlerCall] is one
    call of one of the two handlers, as React makes it; which movements of
    the pointer lead to a call is React's and the browser's business (on a
    button that is disabled React calls no [onMouseEnter]) and is not
    modelled: a pointer that enters the disabled trigger is no call. *)
Inductive HandlerCall :=
| OnMouseEnter
| OnMouseLeave.

Definition initialHovered : bool := false.

Definition setIsHovered (call : HandlerCall) (isHovered : bool) : bool :=
  match call with
  | OnMouseEnter => true
  | OnMouseLeave => false
  end.

(** The state after the handler calls [hs], oldest first. *)
Fixpoint hovered (hs : list HandlerCall) (isHovered : bool) : bool :=
  match hs with
  | [] => isHovered
  | call :: hs' => hovered hs' (setIsHovered call isHovered)
  end.

Record Span := mkSpan {
  span_className : string;
  span_text : string
}.

Record Button := mkButton {
  button_className : string;
  button_disabled : bool;
  button_title : string;
  icon_size : Z;
  tooltip : option Span
}.

Record FileInput := mkFileInput {
  input_type : string;
  input_display : string;
  input_accept : string
}.

Record Fragment := mkFragment {
  button : Button;
  file_input : FileInput
}.

(** The JSX the component returns. *)
Definition render (p : ImageUploadButtonProps) (isHovered : bool) : Fragment :=
  let disabled := disabledOf p in
  let className := classNameOf p in
  mkFragment
    (mkButton
       ("relative rounded-sm p-1 text-neutral-800 opacity-60 hover:text-[#76b900] dark:bg-opacity-50 dark:text-neutral-100 dark:hover:text-neutral-200 "
        ++ className ++ " "
        ++ (if disabled then "opacity-30 cursor-not-allowed"
            else "cursor-pointer"))
       disabled
       "上传图片"
       18
       (if isHovered && negb disabled then
          Some (mkSpan
                  "absolute -top-8 -left-4 bg-black text-white text-xs px-2 py-1 rounded-md whitespace-nowrap"
                  "上传图片")
        else None))
    (mkFileInput "file" "none" "image/*").

End Render.

(** ** Files that pass validation, and pages that hold only such files *)

(** Both checks of [handleFileChange] let the file through. *)
Definition accepted (f : File) : bool :=
  negb (JS.strict_neq (fileType f) (Some "image"))
  && negb (size f >? 2 * 1024 * 1024).

(** A read in flight reports the file it reads, and that file passed
    validation. *)
Definition sound_reader (r : FileReader) : Prop :=
  accepted (onload_file r) = true /\ blob r = onload_file r.

(** A call of [onImageSelect] carries a file that passed validation and a
    non-empty string. *)
Definition sound_call (c : File * string) : Prop :=
  accepted (fst c) = true /\ snd c <> "".

Definition validation_alert (msg : string) : Prop :=
  msg = alert_unsupported \/ msg = alert_too_large.

Definition sound (w : World) : Prop :=
  Forall sound_reader (readers w)
  /\ Forall sound_call (calls w)
  /\ Forall validation_alert (alerts w).

(** ** The launch script [start.sh]

    The script is a straight line of commands with one branch.  It is
    embedded as a function on the state of the shell that runs it; what the
    machine answers (the process ids given to the two background jobs, the
    exit status of [curl], whether the directory of the UI exists) is the
    [Host].  Every command adds an [Action] to the trace of the shell, in
    the order of execution. *)

Module StartSh.

Record Process := mkProcess {
  pid : string;                        (* $! after the job was started *)
  argv : list string;
  dir : string;                        (* working directory of the job *)
  env : list (string * string)         (* exported variables it inherits *)
}.

Inductive Action :=
| Echo (line : string)                           (* echo "..." *)
| Background (job : Process)                     (* cmd & *)
| Sleep (seconds : Z)                            (* sleep n *)
| Foreground (argv : list string) (status : Z)   (* cmd > /dev/null 2>&1 *)
| ChangeDir (target : string) (ok : bool)        (* cd dir *)
| EchoTo (path : string) (content : string)      (* echo ... > file *)
| WaitJobs.                                      (* wait *)

Record Shell := mkShell {
  cwd : string;
  exported : list (string * string);
  last_background : string;                      (* $! *)
  BACKEND_PID : string;
  FRONTEND_PID : string;
  trace : list Action
}.

Record Host := mkHost {
  first_pid : string;       (* process id of the first background job *)
  second_pid : string;      (* process id of the second background job *)
  health : Z;               (* exit status of curl on the health URL *)
  ui_dir : bool             (* external/aiqtoolkit-opensource-ui can be entered *)
}.

(** How the script ends: [exit n], or blocked in [wait] until the
    background jobs are gone. *)
Inductive Outcome :=
| Exited (status : Z)
| Waiting.

Definition log (a : Action) (sh : Shell) : Shell :=
  mkShell (cwd sh) (exported sh) (last_background sh) (BACKEND_PID sh)
          (FRONTEND_PID sh) (trace sh ++ [a]).

Definition echo (line : string) (sh : Shell) : Shell := log (Echo line) sh.

(** [export NAME=value]: the variable is in the environment of the
    commands run afterwards, in place of an inherited value. *)
Definition export (var val : string) (sh : Shell) : Shell :=
  mkShell (cwd sh)
          ((var, val)
           :: filter (fun kv => negb (String.eqb (fst kv) var)) (exported sh))
          (last_background sh) (BACKEND_PID sh) (FRONTEND_PID sh) (trace sh).

(** [cmd &]: the job starts in the current directory with the exported
    variables, and [$!] is its process id. *)
Definition background (args : list string) (id : string) (sh : Shell) : Shell :=
  mkShell (cwd sh) (exported sh) id (BACKEND_PID sh) (FRONTEND_PID sh)
          (trace sh ++ [Background (mkProcess id args (cwd sh) (exported sh))]).

Definition set_BACKEND_PID (v : string) (sh : Shell) : Shell :=
  mkShell (cwd sh) (exported sh) (last_background sh) v (FRONTEND_PID sh)
          (trace sh).

Definition set_FRONTEND_PID (v : string) (sh : Shell) : Shell :=
  mkShell (cwd sh) (exported sh) (last_background sh) (BACKEND_PID sh) v
          (trace sh).

Definition sleep (seconds : Z) (sh : Shell) : Shell := log (Sleep seconds) sh.

Definition foreground (args : list string) (status : Z) (sh : Shell) : Shell :=
  log (Foreground args status) sh.

Definition resolve (base rel : string) : string := base ++ "/" ++ rel.

(** [cd dir] with a relative [dir]: when it fails the shell stays where it
    is and the script goes on (there is no [set -e]). *)
Definition cd (target : string) (ok : bool) (sh : Shell) : Shell :=
  mkShell (if ok then resolve (cwd sh) target else cwd sh)
          (exported sh) (last_background sh) (BACKEND_PID sh)
          (FRONTEND_PID sh) (trace sh ++ [ChangeDir target ok]).

Definition newline : string := String (ascii_of_nat 10) EmptyString.

(** [echo $VAR > file], for a value without blanks: the file in the
    current directory holds the value and a newline. *)
Definition echo_to (file val : string) (sh : Shell) : Shell :=
  log (EchoTo (resolve (cwd sh) file) (val ++ newline)) sh.

Definition wait (sh : Shell) : Shell := log WaitJobs sh.

(** The script; [key] is the value that line 7 exports as
    [TAVILY_API_KEY]. *)
Definition start (key : string) (h : Host) (sh : Shell) : Outcome * Shell :=
  let sh := echo "🚀 启动 NVIDIA NeMo Agent Toolkit - 俄罗斯方块分析系统" sh in
  let sh := echo "======================================================" sh in
  let sh := export "TAVILY_API_KEY" key sh in
  let sh := echo "📡 启动俄罗斯方块分析后端服务..." sh in
  let sh := background ["aiq"; "serve"; "--config_file";
                        "configs/tetris_agent_config.yml";
                        "--host"; "0.0.0.0"; "--port"; "8001"]
                       (first_pid h) sh in
  let sh := set_BACKEND_PID (last_background sh) sh in
  let sh := echo "⏳ 等待后端服务启动..." sh in
  let sh := sleep 8 sh in
  let sh := foreground ["curl"; "-s"; "http://localhost:8001/health"]
                       (health h) sh in
  if health h =? 0 then
    let sh := echo "✅ 后端服务启动成功" sh in
    let sh := echo "🎨 启动前端服务..." sh in
    let sh := cd "external/aiqtoolkit-opensource-ui" (ui_dir h) sh in
    let sh := background ["npm"; "run"; "dev"] (second_pid h) sh in
    let sh := set_FRONTEND_PID (last_background sh) sh in
    let sh := echo "" sh in
    let sh := echo "✅ 俄罗斯方块分析系统启动完成！" sh in
    let sh := echo "" sh in
    let sh := echo "🌐 访问地址:" sh in
    let sh := echo "   前端界面: http://localhost:3000" sh in
    let sh := echo "   API文档:  http://localhost:8001/docs" sh in
    let sh := echo "" sh in
    let sh := echo "🎮 使用说明:" sh in
    let sh := echo "   1. 上传俄罗斯方块游戏截图或提供图片URL" sh in
    let sh := echo "   2. 系统将自动分析游戏状态" sh in
    let sh := echo "   3. 获取详细的策略建议和分析报告" sh in
    let sh := echo "" sh in
    let sh := echo "📝 示例输入:" sh in
    let sh := echo "   - '分析这张俄罗斯方块截图: https://example.com/tetris.jpg'" sh in
    let sh := echo "   - '帮我分析当前的游戏局势'" sh in
    let sh := echo "   - '给出下一步的最佳操作建议'" sh in
    let sh := echo "" sh in
    let sh := echo "🛑 停止服务: 按 Ctrl+C 或运行 ./stop.sh" sh in
    let sh := echo "" sh in
    let sh := echo_to ".backend.pid" (BACKEND_PID sh) sh in
    let sh := echo_to ".frontend.pid" (FRONTEND_PID sh) sh in
    let sh := wait sh in
    (Waiting, sh)
  else
    let sh := echo "❌ 后端服务启动失败，请检查配置" sh in
    (Exited 1, sh).

(** What a trace started, and what it put into files. *)
Definition jobs (t : list Action) : list Process :=
  flat_map (fun a => match a with Background j => [j] | _ => [] end) t.

Definition files_written (t : list Action) : list (string * string) :=
  flat_map (fun a => match a with EchoTo f c => [(f, c)] | _ => [] end) t.

Definition waits (t : list Action) : bool :=
  existsb (fun a => match a with WaitJobs => true | _ => false end) t.

Fixpoint getenv (var : string) (e : list (string * string)) : option string :=
  match e with
  | [] => None
  | (k, v) :: e' => if String.eqb k var then Some v else getenv var e'
  end.

(** A fresh shell in directory [d] with the inherited environment [e]. *)
Definition fresh (d : string) (e : list (string * string)) : Shell :=
  mkShell d e "" "" "" [].

(** The script run by a fresh shell. *)
Definition launch (key : string) (h : Host) (d : string)
  (e : list (string * string)) : Outcome * Shell :=
  start key h (fresh d e).

(** The environment of the jobs: the inherited one with the exported
    variable. *)
Definition child_env (key : string) (e : list (string * string))
  : list (string * string) :=
  exported (export "TAVILY_API_KEY" key (fresh "" e)).

(** The job of line 11, started in directory [d]. *)
Definition backend (key : string) (h : Host) (d : string)
  (e : list (string * string)) : Process :=
  mkProcess (first_pid h)
    ["aiq"; "serve"; "--config_file"; "configs/tetris_agent_config.yml";
     "--host"; "0.0.0.0"; "--port"; "8001"]
    d (child_env key e).

(** The job of line 29, started in directory [here]. *)
Definition frontend (key : string) (h : Host) (here : string)
  (e : list (string * string)) : Process :=
  mkProcess (second_pid h) ["npm"; "run"; "dev"] here (child_env key e).

(** The directory the shell is in after line 28, started in [d]. *)
Definition landing (h : Host) (d : string) : string :=
  if ui_dir h then resolve d "external/aiqtoolkit-opensource-ui" else d.

(** Hosts for the examples: [curl] cannot connect (status 7), or the
    backend answers. *)
Definition host_down : Host := mkHost "4242" "4243" 7 true.
Definition host_up : Host := mkHost "4242" "4243" 0 true.

End StartSh.

(** ** Strings *)

Lemma split_not_nil (sep : ascii) (s : string) : JS.split sep s <> [].
Proof.
  induction s as [| c s IH]; simpl; [discriminate |].
  destruct (Ascii.eqb c sep); [discriminate |].
  destruct (JS.split sep s); discriminate.
Qed.

(** [fileType] is never [undefined]. *)
Lemma fileType_defined (f : File) : exists t, fileType f = Some t.
Proof.
  unfold fileType. pose proof (split_not_nil "/" (type f)) as Hne.
  destruct (JS.split "/" (type f)) as [| t ts]; [congruence |].
  exists t. reflexivity.
Qed.

(** The first piece is the primary category: what precedes the first
    slash of [category/subtype]. *)
Lemma split_category (cat sub : string) :
  no_slash cat = true ->
  hd_error (JS.split "/" (cat ++ String "/" sub)) = Some cat.
Proof.
  induction cat as [| c cat IH]; intros Hns.
  - reflexivity.
  - simpl in Hns. apply andb_true_iff in Hns as [Hc Hrest].
    apply negb_true_iff in Hc. specialize (IH Hrest).
    cbn [append JS.split]. rewrite Hc.
    destruct (JS.split "/" (cat ++ String "/" sub)) as [| p ps]; simpl in IH.
    + discriminate.
    + injection IH as ->. reflexivity.
Qed.

Lemma strict_neq_false (a : option string) (s : string) :
  JS.strict_neq a (Some s) = false <-> a = Some s.
Proof.
  destruct a as [x |]; simpl.
  - rewrite negb_false_iff, String.eqb_eq. split; congruence.
  - split; discriminate.
Qed.

Lemma strict_neq_true (a : option string) (s : string) :
  JS.strict_neq a (Some s) = true <-> a <> Some s.
Proof.
  rewrite <- not_false_iff_true, strict_neq_false. reflexivity.
Qed.

Lemma truthy_false (v : option string) :
  JS.truthy v = false <-> v = None \/ v = Some "".
Proof.
  destruct v as [[| c s] |]; simpl; split; intros H; auto;
    try discriminate; destruct H; discriminate.
Qed.

Lemma prefix_append (p s : string) : String.prefix p (p ++ s) = true.
Proof.
  induction p as [| c p IH]; simpl.
  - destruct s; reflexivity.
  - destruct (ascii_dec c c) as [_ | Hne]; [exact IH | contradiction].
Qed.

Lemma includes_unfold (sub s : string) :
  JS.includes sub s =
  String.prefix sub s
  || match s with EmptyString => false | String _ rest => JS.includes sub rest end.
Proof. destruct s; reflexivity. Qed.

Lemma includes_append (before sub after : string) :
  JS.includes sub (before ++ sub ++ after) = true.
Proof.
  induction before as [| c before IH].
  - simpl. rewrite includes_unfold, prefix_append. reflexivity.
  - cbn [append]. rewrite includes_unfold, IH. apply orb_true_r.
Qed.

Lemma includes_later (c : ascii) (sub s : string) :
  JS.includes sub s = true -> JS.includes sub (String c s) = true.
Proof. intros H. rewrite includes_unfold, H. apply orb_true_r. Qed.

(** Every string of the form [data:<mime>;base64,<payload>] is a data
    URL. *)
Lemma dataURL_form (mime payload : string) :
  isDataURL ("data:" ++ mime ++ ";base64," ++ payload) = true.
Proof.
  unfold isDataURL. apply andb_true_iff. split.
  - apply prefix_append.
  - change ("data:" ++ mime ++ ";base64," ++ payload)
      with (String "d" (String "a" (String "t" (String "a" (String ":"
             (mime ++ ";base64," ++ payload)))))).
    do 5 apply includes_later.
    apply includes_append.
Qed.

(** ** The branches of [handleFileChange] *)

Section Branches.

Variables (file : File) (rest : list File) (w : World).
Hypothesis first_file : files (input w) = Some (file :: rest).

Lemma handleFileChange_unsupported :
  fileType file <> Some "image" ->
  handleFileChange w = Dom.alert alert_unsupported w.
Proof.
  intros Hty. apply strict_neq_true in Hty.
  unfold handleFileChange. rewrite first_file. cbn [nth_error].
  rewrite Hty. reflexivity.
Qed.

Lemma handleFileChange_too_large :
  fileType file = Some "image" ->
  size file > 2097152 ->
  handleFileChange w = Dom.alert alert_too_large w.
Proof.
  intros Hty Hsz. apply strict_neq_false in Hty.
  unfold handleFileChange. rewrite first_file. cbn [nth_error].
  rewrite Hty.
  destruct (Z.gtb_spec (size file) (2 * 1024 * 1024)) as [_ | Hle];
    [reflexivity | lia].
Qed.

Lemma handleFileChange_reads :
  fileType file = Some "image" ->
  size file <= 2097152 ->
  handleFileChange w
  = Dom.clear_value (Dom.readAsDataURL (mkReader file file) w).
Proof.
  intros Hty Hsz. apply strict_neq_false in Hty.
  unfold handleFileChange. rewrite first_file. cbn [nth_error].
  rewrite Hty.
  destruct (Z.gtb_spec (size file) (2 * 1024 * 1024)) as [Hgt | _];
    [lia | reflexivity].
Qed.

End Branches.

Lemma handleFileChange_no_file (w : World) :
  match files (input w) with Some (_ :: _) => False | _ => True end ->
  handleFileChange w = w.
Proof.
  unfold handleFileChange.
  destruct (files (input w)) as [[| f fs] |]; simpl; tauto.
Qed.

Lemma alerts_differ : alert_unsupported <> alert_too_large.
Proof. discriminate. Qed.

(** ** The browser *)

Lemma File_eqb_refl (f : File) : Browser.File_eqb f f = true.
Proof.
  unfold Browser.File_eqb.
  rewrite !String.eqb_refl, Z.eqb_refl. reflexivity.
Qed.

Lemma selection_eqb_refl (fs : list File) : Browser.selection_eqb fs fs = true.
Proof.
  induction fs as [| f fs IH]; simpl; [reflexivity |].
  rewrite File_eqb_refl. exact IH.
Qed.

Lemma take_drop_last {A : Type} (l : list A) (x : A) :
  nth_error (l ++ [x])%list (length l) = Some x
  /\ (firstn (length l) (l ++ [x]) ++ skipn (S (length l)) (l ++ [x]))%list = l.
Proof.
  induction l as [| a l [IHn IHd]]; simpl.
  - split; reflexivity.
  - split; [exact IHn | f_equal; exact IHd].
Qed.

(** A truthy result reaches the caller, unchanged, with the captured
    file. *)
Lemma reader_onload_truthy (file : File) (s : string) (w : World) :
  JS.truthy (Some s) = true ->
  reader_onload file (Some s) w = Dom.onImageSelect file s w.
Proof. intros H. unfold reader_onload. rewrite H. reflexivity. Qed.

Lemma reader_onload_falsy (file : File) (result : option string) (w : World) :
  JS.truthy result = false -> reader_onload file result w = w.
Proof. intros H. unfold reader_onload. rewrite H. reflexivity. Qed.

Lemma dataURL_truthy (s : string) : isDataURL s = true -> JS.truthy (Some s) = true.
Proof.
  unfold isDataURL. intros H. apply andb_true_iff in H as [Hp _].
  destruct s; [discriminate Hp | reflexivity].
Qed.

(** The read started last completes with a truthy result: the caller is
    told, and the reader is done. *)
Lemma fireLoad_fresh_reader (file : File) (s : string) (w : World) :
  JS.truthy (Some s) = true ->
  Browser.fireLoad (length (readers w)) (Some s)
    (Dom.clear_value (Dom.readAsDataURL (mkReader file file) w))
  = Dom.onImageSelect file s (Dom.clear_value w).
Proof.
  intros Htruthy.
  destruct (take_drop_last (readers w) (mkReader file file)) as [Hnth Hdrop].
  unfold Browser.fireLoad.
  cbn [readers Dom.clear_value Dom.readAsDataURL]. rewrite Hnth.
  cbn [onload_file]. rewrite reader_onload_truthy by exact Htruthy.
  unfold Dom.onImageSelect, Browser.drop_reader.
  cbn [input mounted picker_open picker_opened alerts readers calls
       Dom.clear_value Dom.readAsDataURL].
  rewrite Hdrop. reflexivity.
Qed.



(** ** The claims *)




(** C2. For every file whose MIME primary category is not "image",
    [handleFileChange] presents exactly one alert, "只支持图片文件", and
    nothing else happens: no callback, no read, and the rest of the page
    is as it was. *)
Theorem non_image_rejected_with_one_alert
  (file : File) (rest : list File) (w : World) :
  files (input w) = Some (file :: rest) ->
  fileType file <> Some "image" ->
  let w' := handleFileChange w in
  w' = Dom.alert "只支持图片文件" w
  /\ alerts w' = (alerts w ++ ["只支持图片文件"])%list
  /\ calls w' = calls w
  /\ readers w' = readers w
  /\ input w' = input w
  /\ picker_open w' = picker_open w.
Proof.
  intros Hfiles Hty w'.
  pose proof (handleFileChange_unsupported file rest w Hfiles Hty) as Hw'.
  fold w' in Hw'. rewrite Hw'. repeat split.
Qed.

Lemma non_image_rejected_with_one_alert_witness :
  let w := Browser.select (Some [txt_10k]) Browser.initial in
  fileType txt_10k <> Some "image"
  /\ alerts (handleFileChange w) = ["只支持图片文件"]
  /\ calls (handleFileChange w) = [].
Proof.
  intros w.
  assert (Hty : fileType txt_10k <> Some "image") by discriminate.
  pose proof (non_image_rejected_with_one_alert txt_10k [] w eq_refl Hty)
    as (_ & Halerts & Hcalls & _).
  repeat split; assumption.
Defined.

(** C3, as the code has it. For every file larger than 2,097,152 bytes,
    [handleFileChange] invokes no callback, starts no read and presents
    exactly one alert: "文件大小不能超过2MB" when the MIME primary category
    is "image", and the type alert when it is not. *)
Theorem oversize_rejected
  (file : File) (rest : list File) (w : World) :
  files (input w) = Some (file :: rest) ->
  size file > 2097152 ->
  let w' := handleFileChange w in
  calls w' = calls w
  /\ readers w' = readers w
  /\ (fileType file = Some "image" ->
      w' = Dom.alert "文件大小不能超过2MB" w
      /\ alerts w' = (alerts w ++ ["文件大小不能超过2MB"])%list)
  /\ (fileType file <> Some "image" ->
      w' = Dom.alert "只支持图片文件" w
      /\ alerts w' = (alerts w ++ ["只支持图片文件"])%list).
Proof.
  intros Hfiles Hsz w'.
  assert (Himg : fileType file = Some "image" ->
                 w' = Dom.alert alert_too_large w)
    by (intros Hty; apply (handleFileChange_too_large file rest); assumption).
  assert (Hother : fileType file <> Some "image" ->
                   w' = Dom.alert alert_unsupported w)
    by (intros Hty; apply (handleFileChange_unsupported file rest); assumption).
  destruct (JS.strict_neq (fileType file) (Some "image")) eqn:Hcmp.
  - apply strict_neq_true in Hcmp. rewrite (Hother Hcmp).
    split; [reflexivity |]. split; [reflexivity |].
    split; intros Hty; [contradiction | split; reflexivity].
  - apply strict_neq_false in Hcmp. rewrite (Himg Hcmp).
    split; [reflexivity |]. split; [reflexivity |].
    split; intros Hty; [split; reflexivity | contradiction].
Qed.

Lemma oversize_rejected_witness :
  let w := Browser.select (Some [jpeg_3m]) Browser.initial in
  size jpeg_3m > 2097152
  /\ fileType jpeg_3m = Some "image"
  /\ alerts (handleFileChange w) = ["文件大小不能超过2MB"]
  /\ calls (handleFileChange w) = [].
Proof.
  intros w.
  assert (Hsz : size jpeg_3m > 2097152) by (simpl; lia).
  pose proof (oversize_rejected jpeg_3m [] w eq_refl Hsz)
    as (Hcalls & _ & Himg & _).
  destruct (Himg eq_refl) as [_ Halerts].
  split; [exact Hsz |]. split; [reflexivity |].
  split; [exact Halerts | exact Hcalls].
Defined.

(** C3, as stated, fails: a text file of 3 MiB exceeds the limit, and the
    alert presented is the type alert, not "文件大小不能超过2MB". *)
Lemma oversize_text_file_gets_type_alert :
  let w := Browser.select (Some [txt_3m]) Browser.initial in
  size txt_3m > 2097152
  /\ alerts (handleFileChange w) = ["只支持图片文件"]
  /\ ~ In "文件大小不能超过2MB" (alerts (handleFileChange w)).
Proof.
  intros w. split; [simpl; lia |]. split; [reflexivity |].
  intros [Heq | []]. discriminate Heq.
Qed.

(** C4. The MIME category check precedes the size check: for every file
    that is not an image and is larger than 2,097,152 bytes, the one alert
    presented is "只支持图片文件", and the size plays no part in it: the
    same file with any other size gets the same alert. *)
Theorem type_check_precedes_size_check
  (file : File) (rest : list File) (w : World) :
  files (input w) = Some (file :: rest) ->
  fileType file <> Some "image" ->
  size file > 2097152 ->
  let w' := handleFileChange w in
  alerts w' = (alerts w ++ ["只支持图片文件"])%list
  /\ alerts w' <> (alerts w ++ ["文件大小不能超过2MB"])%list
  /\ forall sz,
       alerts (Browser.dispatchChange (Some (resized sz file :: rest)) w)
       = alerts w'.
Proof.
  intros Hfiles Hty Hsz w'.
  assert (Hw' : w' = Dom.alert alert_unsupported w)
    by (apply (handleFileChange_unsupported file rest); assumption).
  rewrite Hw'. cbn [alerts Dom.alert]. split; [reflexivity |]. split.
  - intros Heq. apply app_inv_head in Heq. discriminate Heq.
  - intros sz. unfold Browser.dispatchChange.
    rewrite (handleFileChange_unsupported (resized sz file) rest).
    + reflexivity.
    + reflexivity.
    + exact Hty.
Qed.

Lemma type_check_precedes_size_check_witness :
  let w := Browser.select (Some [txt_3m]) Browser.initial in
  fileType txt_3m <> Some "image"
  /\ size txt_3m > 2097152
  /\ alerts (handleFileChange w) = ["只支持图片文件"].
Proof.
  intros w.
  assert (Hty : fileType txt_3m <> Some "image") by discriminate.
  assert (Hsz : size txt_3m > 2097152) by (simpl; lia).
  split; [exact Hty |]. split; [exact Hsz |].
  exact (proj1 (type_check_precedes_size_check txt_3m [] w eq_refl Hty Hsz)).
Defined.




(** C6. For every read that completes without a truthy result ([null],
    [undefined] or the empty string), [onload] changes nothing: no
    callback, no alert, nothing the caller can observe; the page differs
    from before only in that the reader is done. *)
Theorem empty_result_is_silent
  (file : File) (result : option string) (w : World) :
  JS.truthy result = false ->
  reader_onload file result w = w
  /\ forall i,
       let w' := Browser.fireLoad i result w in
       calls w' = calls w /\ alerts w' = alerts w /\ input w' = input w
       /\ picker_open w' = picker_open w
       /\ (w' = w \/ w' = Browser.drop_reader i w).
Proof.
  intros Hfalsy. split.
  - apply reader_onload_falsy. exact Hfalsy.
  - intros i w'. subst w'. unfold Browser.fireLoad.
    destruct (nth_error (readers w) i) as [r |].
    + rewrite reader_onload_falsy by exact Hfalsy.
      repeat split. right. reflexivity.
    + repeat split. left. reflexivity.
Qed.

Lemma empty_result_is_silent_witness :
  let w := handleFileChange (Browser.select (Some [png_500k]) Browser.initial) in
  JS.truthy (Some "") = false
  /\ reader_onload png_500k (Some "") w = w
  /\ calls (Browser.fireLoad 0 None w) = [].
Proof.
  intros w. split; [reflexivity |]. split.
  - exact (proj1 (empty_result_is_silent png_500k (Some "") w eq_refl)).
  - exact (proj1 (proj2 (empty_result_is_silent png_500k None w eq_refl) 0%nat)).
Defined.

(** C7, as the code has it. For every invocation of [handleFileChange]
    that starts a read (a file is present, its MIME primary category is
    "image", its size is at most 2,097,152), the input's value is the empty
    string afterwards, whatever the read yields later; choosing the
    identical file again therefore raises change, and a second read of it
    starts. *)
Theorem value_cleared_once_read_started
  (file : File) (rest : list File) (w : World) :
  files (input w) = Some (file :: rest) ->
  fileType file = Some "image" ->
  size file <= 2097152 ->
  let w' := handleFileChange w in
  readers w' = (readers w ++ [mkReader file file])%list
  /\ Dom.value (input w') = ""
  /\ (forall i result, Dom.value (input (Browser.fireLoad i result w')) = "")
  /\ Browser.changeFires (file :: rest) w' = true
  /\ readers (Browser.userPicks (file :: rest) (Dom.click w'))
     = (readers w ++ [mkReader file file; mkReader file file])%list.
Proof.
  intros Hfiles Hty Hsz w'.
  assert (Hw' : w' = Dom.clear_value (Dom.readAsDataURL (mkReader file file) w))
    by (apply (handleFileChange_reads file rest); assumption).
  rewrite Hw'. split; [reflexivity |]. split; [reflexivity |]. split; [| split].
  - intros i result. unfold Browser.fireLoad.
    match goal with
    | |- context [nth_error ?l i] => destruct (nth_error l i) as [r |]
    end; [| reflexivity].
    unfold reader_onload. destruct (JS.truthy result); [| reflexivity].
    destruct result; reflexivity.
  - reflexivity.
  - unfold Browser.userPicks. cbn [picker_open Dom.click].
    change (Browser.changeFires (file :: rest) _) with true. cbv iota.
    rewrite (handleFileChange_reads file rest); try assumption; [| reflexivity].
    cbn. rewrite <- app_assoc. reflexivity.
Qed.

Lemma value_cleared_once_read_started_witness :
  let w := Browser.select (Some [png_exact]) Browser.initial in
  fileType png_exact = Some "image"
  /\ size png_exact <= 2097152
  /\ Dom.value (input w) = "C:\fakepath\edge.png"
  /\ Dom.value (input (handleFileChange w)) = "".
Proof.
  intros w.
  assert (Hsz : size png_exact <= 2097152) by (simpl; lia).
  split; [reflexivity |]. split; [exact Hsz |]. split; [reflexivity |].
  exact (proj1 (proj2
    (value_cleared_once_read_started png_exact [] w eq_refl eq_refl Hsz))).
Defined.

(** C7, as stated, fails: not every invocation resets the value. After the
    change event for a text file the input still holds the file's path. *)
Lemma rejected_file_keeps_input_value :
  let w := Browser.select (Some [txt_10k]) Browser.initial in
  Dom.value (input (handleFileChange w)) = "C:\fakepath\notes.txt"
  /\ Dom.value (input (handleFileChange w)) <> "".
Proof.
  intros w. split; [reflexivity | discriminate].
Qed.

(** C8. With no file in the change event ([files] is [null] or empty),
    [handleFileChange] is a no-op: no alert, no read, no callback, and the
    input keeps its value. *)
Theorem absent_file_is_noop (w : World) :
  files (input w) = None \/ files (input w) = Some [] ->
  let w' := handleFileChange w in
  w' = w
  /\ alerts w' = alerts w
  /\ readers w' = readers w
  /\ calls w' = calls w
  /\ Dom.value (input w') = Dom.value (input w).
Proof.
  intros Habsent w'.
  assert (Hw' : w' = w).
  { apply handleFileChange_no_file. destruct Habsent as [-> | ->]; exact I. }
  rewrite Hw'. repeat split.
Qed.

Lemma absent_file_is_noop_witness :
  files (input Browser.initial) = Some []
  /\ handleFileChange Browser.initial = Browser.initial
  /\ handleFileChange (Browser.select None Browser.initial)
     = Browser.select None Browser.initial.
Proof.
  split; [reflexivity |]. split.
  - exact (proj1 (absent_file_is_noop Browser.initial (or_intror eq_refl))).
  - exact (proj1 (absent_file_is_noop (Browser.select None Browser.initial)
                    (or_introl eq_refl))).
Defined.

(** C9. The size limit is inclusive: an image file of exactly 2,097,152
    bytes passes the size check and its read starts, with no alert; an
    image file of 2,097,153 bytes gets the alert "文件大小不能超过2MB" and
    no read. *)
Theorem size_limit_is_inclusive
  (file : File) (rest : list File) (w : World) :
  files (input w) = Some (file :: rest) ->
  fileType file = Some "image" ->
  let w' := handleFileChange w in
  (size file = 2097152 ->
     readers w' = (readers w ++ [mkReader file file])%list
     /\ alerts w' = alerts w)
  /\ (size file = 2097153 ->
     readers w' = readers w
     /\ alerts w' = (alerts w ++ ["文件大小不能超过2MB"])%list).
Proof.
  intros Hfiles Hty w'. split; intros Hsz; subst w'.
  - rewrite (handleFileChange_reads file rest); try assumption; [| lia].
    split; reflexivity.
  - rewrite (handleFileChange_too_large file rest); try assumption; [| lia].
    split; reflexivity.
Qed.

Lemma size_limit_is_inclusive_witness :
  let at_limit := Browser.select (Some [png_exact]) Browser.initial in
  let above := Browser.select (Some [png_over]) Browser.initial in
  readers (handleFileChange at_limit) = [mkReader png_exact png_exact]
  /\ alerts (handleFileChange above) = ["文件大小不能超过2MB"].
Proof.
  intros at_limit above. split.
  - exact (proj1 (proj1
      (size_limit_is_inclusive png_exact [] at_limit eq_refl eq_refl) eq_refl)).
  - exact (proj2 (proj2
      (size_limit_is_inclusive png_over [] above eq_refl eq_refl) eq_refl)).
Defined.

(** C10. On either validation failure (not an image, or larger than
    2,097,152 bytes) the input is left as it was: its value is still the
    rejected file's path, not the empty string, so choosing that same file
    again raises no change event and the handler does not run. *)
Theorem rejected_file_value_not_cleared
  (file : File) (rest : list File) (w : World) :
  files (input w) = Some (file :: rest) ->
  fileType file <> Some "image" \/ size file > 2097152 ->
  let w' := handleFileChange w in
  input w' = input w
  /\ Dom.value (input w') = Dom.fakepath file
  /\ Dom.value (input w') <> ""
  /\ Browser.changeFires (file :: rest) w' = false
  /\ Browser.userPicks (file :: rest) (Dom.click w')
     = Browser.closePicker (Dom.click w').
Proof.
  intros Hfiles Hrej w'.
  assert (Hw' : exists msg, w' = Dom.alert msg w).
  { destruct (JS.strict_neq (fileType file) (Some "image")) eqn:Hcmp.
    - exists alert_unsupported. apply strict_neq_true in Hcmp.
      apply (handleFileChange_unsupported file rest); assumption.
    - exists alert_too_large. apply strict_neq_false in Hcmp.
      destruct Hrej as [Hty | Hsz]; [contradiction |].
      apply (handleFileChange_too_large file rest); assumption. }
  destruct Hw' as [msg Hw'].
  assert (Hin : input w' = input w) by (rewrite Hw'; reflexivity).
  assert (Hheld : Browser.changeFires (file :: rest) w' = false).
  { unfold Browser.changeFires. rewrite Hin, Hfiles.
    rewrite selection_eqb_refl. reflexivity. }
  split; [exact Hin |]. rewrite Hin. unfold Dom.value. rewrite Hfiles.
  split; [reflexivity |]. split; [discriminate |]. split; [exact Hheld |].
  unfold Browser.userPicks. cbn [picker_open Dom.click].
  change (Browser.changeFires (file :: rest) (Browser.closePicker (Dom.click w')))
    with (Browser.changeFires (file :: rest) w').
  rewrite Hheld. reflexivity.
Qed.

Lemma rejected_file_value_not_cleared_witness :
  let w := Browser.select (Some [jpeg_3m]) Browser.initial in
  size jpeg_3m > 2097152
  /\ Dom.value (input (handleFileChange w)) = "C:\fakepath\photo.jpg"
  /\ alerts (Browser.userPicks [jpeg_3m] (Dom.click (handleFileChange w)))
     = ["文件大小不能超过2MB"].
Proof.
  intros w.
  assert (Hsz : size jpeg_3m > 2097152) by (simpl; lia).
  pose proof (rejected_file_value_not_cleared jpeg_3m [] w eq_refl
                (or_intror Hsz)) as (_ & Hval & _ & _ & Hpick).
  split; [exact Hsz |]. split; [exact Hval |].
  rewrite Hpick. reflexivity.
Defined.

(** ** Further properties of the component *)

Lemma append_slash_not_empty (p r : string) : p ++ String "/" r <> "".
Proof. destruct p; discriminate. Qed.

(** The first piece of [s.split('/')] is [p] exactly when [p] has no slash
    and [s] is [p] or [p] followed by a slash and anything. *)
Lemma first_piece (s p : string) :
  hd_error (JS.split "/" s) = Some p
  <-> no_slash p = true /\ (s = p \/ exists r, s = p ++ String "/" r).
Proof.
  revert p. induction s as [| c s IH]; intros p.
  - cbn [JS.split hd_error]. split.
    + intros [= <-]. split; [reflexivity | left; reflexivity].
    + intros [_ [<- | [r Hr]]]; [reflexivity |].
      symmetry in Hr. apply append_slash_not_empty in Hr. contradiction.
  - cbn [JS.split]. destruct (Ascii.eqb c "/") eqn:Hc.
    + apply Ascii.eqb_eq in Hc. subst c. cbn [hd_error]. split.
      * intros [= <-]. split; [reflexivity |]. right. exists s. reflexivity.
      * intros [Hns Hshape]. destruct p as [| c' p']; [reflexivity |].
        assert (Hc' : c' = "/"%char)
          by (destruct Hshape as [[= -> _] | [r [= -> _]]]; reflexivity).
        subst c'. discriminate Hns.
    + pose proof (split_not_nil "/" s) as Hne.
      destruct (JS.split "/" s) as [| piece pieces]; [congruence |].
      cbn [hd_error] in *. split.
      * intros [= <-]. destruct (proj1 (IH piece) eq_refl) as [Hns Hshape].
        split; [cbn [no_slash]; rewrite Hc, Hns; reflexivity |].
        destruct Hshape as [-> | [r ->]]; [left | right; exists r]; reflexivity.
      * intros [Hns Hshape]. destruct p as [| c' p'].
        -- destruct Hshape as [[=] | [r [= -> _]]]. discriminate Hc.
        -- cbn [no_slash] in Hns. apply andb_true_iff in Hns as [_ Hns].
           assert (Hhead : c' = c /\ (s = p' \/ exists r, s = p' ++ String "/" r)).
           { destruct Hshape as [[= -> ->] | [r [= -> ->]]];
               (split; [reflexivity |]); [left | right; exists r]; reflexivity. }
           destruct Hhead as [-> Htail].
           pose proof (proj2 (IH p') (conj Hns Htail)) as [= ->]. reflexivity.
Qed.

(** X1. The type check of [handleFileChange] lets a file through exactly
    when its declared type is "image" or begins with "image/": the
    comparison is exact and case-sensitive, and a subtype is not needed. *)
Theorem fileType_is_image_iff (file : File) :
  fileType file = Some "image"
  <-> type file = "image" \/ exists subtype, type file = "image/" ++ subtype.
Proof.
  unfold fileType. rewrite first_piece. split.
  - intros [_ [H | [r H]]]; [left | right; exists r]; exact H.
  - intros [H | [r H]]; (split; [reflexivity |]); [left | right; exists r];
      exact H.
Qed.

Lemma accepted_spec (f : File) :
  accepted f = true <-> fileType f = Some "image" /\ size f <= 2097152.
Proof.
  unfold accepted. rewrite andb_true_iff, !negb_true_iff, strict_neq_false.
  destruct (Z.gtb_spec (size f) (2 * 1024 * 1024)); split; intros [Hty Hsz];
    split; try assumption; try reflexivity; try lia; discriminate.
Qed.

(** What [handleFileChange] does, by the first file of the event. *)
Lemma handleFileChange_cases (w : World) :
  match files (input w) with
  | Some (f :: _) =>
      handleFileChange w
      = if accepted f
        then Dom.clear_value (Dom.readAsDataURL (mkReader f f) w)
        else Dom.alert (if JS.strict_neq (fileType f) (Some "image")
                        then alert_unsupported else alert_too_large) w
  | _ => handleFileChange w = w
  end.
Proof.
  unfold handleFileChange, accepted.
  destruct (files (input w)) as [[| f fs] |]; cbn [nth_error]; try reflexivity.
  destruct (JS.strict_neq (fileType f) (Some "image")); cbn [negb andb];
    [reflexivity |].
  destruct (size f >? 2 * 1024 * 1024); reflexivity.
Qed.

(** X2. Whatever the event holds, [handleFileChange] does one of three
    things: nothing, exactly one of the two validation alerts, or the start
    of exactly one read of a file that passed both checks, with the input
    cleared. It never alerts and reads at once, never calls [onImageSelect]
    itself, and never opens or closes the file-selection surface. *)
Theorem handleFileChange_outcomes (w : World) :
  let w' := handleFileChange w in
  calls w' = calls w
  /\ picker_open w' = picker_open w
  /\ picker_opened w' = picker_opened w
  /\ mounted w' = mounted w
  /\ (w' = w
      \/ (exists msg, validation_alert msg /\ w' = Dom.alert msg w)
      \/ (exists file,
            accepted file = true
            /\ w' = Dom.clear_value (Dom.readAsDataURL (mkReader file file) w))).
Proof.
  intros w'. subst w'. pose proof (handleFileChange_cases w) as Hcases.
  destruct (files (input w)) as [[| f fs] |];
    try (rewrite Hcases; repeat split; left; reflexivity).
  rewrite Hcases. destruct (accepted f) eqn:Hacc.
  - repeat split. right. right. exists f. split; [exact Hacc | reflexivity].
  - repeat split. right. left.
    destruct (JS.strict_neq (fileType f) (Some "image")).
    + exists alert_unsupported. split; [left |]; reflexivity.
    + exists alert_too_large. split; [right |]; reflexivity.
Qed.

(** X3. Only the first file of the event is looked at: files after it are
    neither validated nor read nor reported, so the alerts, the reads in
    flight and the calls are those of the event with the first file
    alone. *)
Theorem only_first_file_is_considered
  (file : File) (rest : list File) (w : World) :
  let several := Browser.dispatchChange (Some (file :: rest)) w in
  let single := Browser.dispatchChange (Some [file]) w in
  alerts several = alerts single
  /\ readers several = readers single
  /\ calls several = calls single
  /\ (readers several = readers w
      \/ readers several = (readers w ++ [mkReader file file])%list).
Proof.
  intros several single. subst several single. unfold Browser.dispatchChange.
  pose proof (handleFileChange_cases (Browser.select (Some (file :: rest)) w))
    as Hseveral.
  pose proof (handleFileChange_cases (Browser.select (Some [file]) w))
    as Hsingle.
  cbn [files input Browser.select] in Hseveral, Hsingle.
  rewrite Hseveral, Hsingle.
  destruct (accepted file).
  - repeat split. right. reflexivity.
  - repeat split. left. reflexivity.
Qed.

(** *** Pages that hold only validated files *)

Lemma Forall_without {A : Type} (P : A -> Prop) (i : nat) (l : list A) :
  Forall P l -> Forall P (firstn i l ++ skipn (S i) l)%list.
Proof.
  intros Hall. revert i. induction Hall as [| x l Hx Hl IH]; intros [| i].
  - constructor.
  - constructor.
  - exact Hl.
  - cbn [firstn skipn app]. constructor; [exact Hx | apply IH].
Qed.

Lemma sound_alert (msg : string) (w : World) :
  validation_alert msg -> sound w -> sound (Dom.alert msg w).
Proof.
  intros Hmsg (Hr & Hc & Ha). repeat split; try assumption.
  cbn [alerts Dom.alert]. apply Forall_app. split; [exact Ha |].
  constructor; [exact Hmsg | constructor].
Qed.

Lemma sound_read (f : File) (w : World) :
  accepted f = true ->
  sound w ->
  sound (Dom.clear_value (Dom.readAsDataURL (mkReader f f) w)).
Proof.
  intros Hacc (Hr & Hc & Ha). repeat split; try assumption.
  cbn [readers Dom.clear_value Dom.readAsDataURL]. apply Forall_app.
  split; [exact Hr |]. constructor; [| constructor]. split; [exact Hacc | reflexivity].
Qed.

Lemma sound_handleFileChange (w : World) :
  sound w -> sound (handleFileChange w).
Proof.
  intros Hw. pose proof (handleFileChange_cases w) as Hcases.
  destruct (files (input w)) as [[| f fs] |]; try (rewrite Hcases; exact Hw).
  rewrite Hcases. destruct (accepted f) eqn:Hacc.
  - apply sound_read; assumption.
  - apply sound_alert; [| exact Hw].
    destruct (JS.strict_neq (fileType f) (Some "image")); [left | right];
      reflexivity.
Qed.

Lemma sound_fireLoad (i : nat) (result : option string) (w : World) :
  sound w -> sound (Browser.fireLoad i result w).
Proof.
  intros (Hr & Hc & Ha). unfold Browser.fireLoad.
  destruct (nth_error (readers w) i) as [rd |] eqn:Hnth;
    [| repeat split; assumption].
  assert (Hrd : sound_reader rd).
  { apply nth_error_In in Hnth. rewrite Forall_forall in Hr. apply Hr, Hnth. }
  assert (Hdropped : sound (Browser.drop_reader i w)).
  { repeat split; try assumption.
    cbn [readers Browser.drop_reader]. apply Forall_without, Hr. }
  unfold reader_onload. destruct result as [[| c s] |]; cbn [JS.truthy];
    try exact Hdropped.
  destruct Hdropped as (Hr' & Hc' & Ha'). repeat split; try assumption.
  cbn [calls Dom.onImageSelect]. apply Forall_app. split; [exact Hc' |].
  constructor; [| constructor]. split; [exact (proj1 Hrd) | discriminate].
Qed.

Lemma sound_step (props : Props) (ev : Browser.Event) (w : World) :
  sound w -> sound (Browser.step props ev w).
Proof.
  intros Hw. destruct ev as [| chosen | fs | i result]; cbn [Browser.step].
  - unfold triggerFileUpload.
    destruct (disabled props); [exact Hw |].
    destruct (mounted w); exact Hw.
  - unfold Browser.userPicks. destruct (picker_open w); [| exact Hw].
    destruct (Browser.changeFires chosen (Browser.closePicker w));
      [| exact Hw].
    apply sound_handleFileChange. exact Hw.
  - apply sound_handleFileChange. exact Hw.
  - apply sound_fireLoad. exact Hw.
Qed.

(** X4. Along every sequence of events (clicks, choices in the surface,
    change events dispatched on the input, read completions in any order)
    and whatever [disabled] is, a page that holds only validated files stays
    so: every call of [onImageSelect] carries a file that passed both checks
    and a non-empty string, every read in flight reads and reports one
    accepted file, and every alert is one of the two validation messages. *)
Theorem run_keeps_sound
  (props : Props) (evs : list Browser.Event) (w : World) :
  sound w -> sound (Browser.run props evs w).
Proof.
  revert w. induction evs as [| ev evs IH]; intros w Hw; cbn [Browser.run].
  - exact Hw.
  - apply IH, sound_step, Hw.
Qed.

Lemma run_keeps_sound_witness :
  sound Browser.initial
  /\ sound (Browser.run (mkProps false)
              [Browser.EvClick; Browser.EvPick [txt_10k];
               Browser.EvChange (Some [png_500k; jpeg_3m]);
               Browser.EvChange (Some [jpeg_3m]);
               Browser.EvLoad 0 (Some png_url)]
              Browser.initial).
Proof.
  assert (Hinit : sound Browser.initial) by (repeat split; constructor).
  split; [exact Hinit |].
  exact (run_keeps_sound _ _ Browser.initial Hinit).
Defined.

(** *** Reads in flight *)

Lemma fireLoad_at (i : nat) (rd : FileReader) (s : string) (w : World) :
  nth_error (readers w) i = Some rd ->
  JS.truthy (Some s) = true ->
  Browser.fireLoad i (Some s) w
  = Dom.onImageSelect (onload_file rd) s (Browser.drop_reader i w).
Proof.
  intros Hnth Htruthy. unfold Browser.fireLoad. rewrite Hnth.
  apply reader_onload_truthy. exact Htruthy.
Qed.

Lemma dispatchChange_accepted (file : File) (rest : list File) (w : World) :
  accepted file = true ->
  Browser.dispatchChange (Some (file :: rest)) w
  = Dom.clear_value (Dom.readAsDataURL (mkReader file file) w).
Proof.
  intros Hacc. unfold Browser.dispatchChange.
  pose proof (handleFileChange_cases (Browser.select (Some (file :: rest)) w))
    as Hcases.
  cbn [files input Browser.select] in Hcases. rewrite Hcases, Hacc.
  reflexivity.
Qed.

Lemma two_in_flight {A : Type} (l : list A) (x y : A) :
  let both := ((l ++ [x]) ++ [y])%list in
  nth_error both (length l) = Some x
  /\ (firstn (length l) both ++ skipn (S (length l)) both)%list = (l ++ [y])%list
  /\ nth_error both (S (length l)) = Some y
  /\ (firstn (S (length l)) both ++ skipn (S (S (length l))) both)%list
     = (l ++ [x])%list.
Proof.
  induction l as [| a l IH]; cbn.
  - repeat split.
  - cbn in IH. destruct IH as (H1 & H2 & H3 & H4).
    repeat split; try assumption; f_equal; assumption.
Qed.

(** X5. Two reads in flight are not mixed up: when two accepted files are
    chosen one after the other and their reads complete, in either order,
    each result reaches [onImageSelect] with the file it was read from,
    once, and no read is left in flight. *)
Theorem reads_in_flight_keep_their_file
  (a b : File) (ra rb : string) (w : World) :
  accepted a = true ->
  accepted b = true ->
  JS.truthy (Some ra) = true ->
  JS.truthy (Some rb) = true ->
  let n := length (readers w) in
  let w2 := Browser.dispatchChange (Some [b])
              (Browser.dispatchChange (Some [a]) w) in
  let in_order := Browser.fireLoad n (Some rb) (Browser.fireLoad n (Some ra) w2) in
  let reversed := Browser.fireLoad n (Some ra) (Browser.fireLoad (S n) (Some rb) w2) in
  readers w2 = (readers w ++ [mkReader a a; mkReader b b])%list
  /\ calls in_order = (calls w ++ [(a, ra); (b, rb)])%list
  /\ calls reversed = (calls w ++ [(b, rb); (a, ra)])%list
  /\ readers in_order = readers w
  /\ readers reversed = readers w.
Proof.
  intros Ha Hb Hra Hrb n w2 in_order reversed.
  destruct (two_in_flight (readers w) (mkReader a a) (mkReader b b))
    as (Hx & Hdropx & Hy & Hdropy).
  destruct (take_drop_last (readers w) (mkReader a a)) as [Hlastx Hrestx].
  destruct (take_drop_last (readers w) (mkReader b b)) as [Hlasty Hresty].
  assert (Hw2 : readers w2
                = ((readers w ++ [mkReader a a]) ++ [mkReader b b])%list).
  { subst w2. rewrite !dispatchChange_accepted by assumption. reflexivity. }
  assert (Hcalls2 : calls w2 = calls w).
  { subst w2. rewrite !dispatchChange_accepted by assumption. reflexivity. }
  assert (Hfirst : Browser.fireLoad n (Some ra) w2
                   = Dom.onImageSelect a ra (Browser.drop_reader n w2)).
  { apply (fireLoad_at n (mkReader a a)); [rewrite Hw2; exact Hx | exact Hra]. }
  assert (Hsecond : Browser.fireLoad (S n) (Some rb) w2
                    = Dom.onImageSelect b rb (Browser.drop_reader (S n) w2)).
  { apply (fireLoad_at (S n) (mkReader b b)); [rewrite Hw2; exact Hy | exact Hrb]. }
  assert (Hin : in_order
                = Dom.onImageSelect b rb
                    (Browser.drop_reader n
                       (Dom.onImageSelect a ra (Browser.drop_reader n w2)))).
  { subst in_order. rewrite Hfirst.
    apply (fireLoad_at n (mkReader b b)); [| exact Hrb].
    cbn [readers Dom.onImageSelect Browser.drop_reader].
    rewrite Hw2. fold n. subst n. rewrite Hdropx. exact Hlasty. }
  assert (Hrev : reversed
                 = Dom.onImageSelect a ra
                     (Browser.drop_reader n
                        (Dom.onImageSelect b rb (Browser.drop_reader (S n) w2)))).
  { subst reversed. rewrite Hsecond.
    apply (fireLoad_at n (mkReader a a)); [| exact Hra].
    cbn [readers Dom.onImageSelect Browser.drop_reader].
    rewrite Hw2. subst n. rewrite Hdropy. exact Hlastx. }
  split; [rewrite Hw2, <- app_assoc; reflexivity |].
  rewrite Hin, Hrev.
  cbn [calls readers Dom.onImageSelect Browser.drop_reader].
  rewrite Hcalls2, Hw2. subst n. rewrite Hdropx, Hdropy, Hrestx, Hresty.
  rewrite <- !app_assoc. repeat split.
Qed.

Lemma reads_in_flight_keep_their_file_witness :
  let w2 := Browser.dispatchChange (Some [png_exact])
              (Browser.dispatchChange (Some [png_500k]) Browser.initial) in
  accepted png_500k = true
  /\ accepted png_exact = true
  /\ calls (Browser.fireLoad 0 (Some png_url)
              (Browser.fireLoad 1 (Some "data:image/png;base64,AAAA") w2))
     = [(png_exact, "data:image/png;base64,AAAA"); (png_500k, png_url)].
Proof.
  intros w2. split; [reflexivity |]. split; [reflexivity |].
  exact (proj1 (proj2 (proj2
    (reads_in_flight_keep_their_file png_500k png_exact png_url
       "data:image/png;base64,AAAA" Browser.initial
       eq_refl eq_refl eq_refl eq_refl)))).
Defined.

(** *** A selection through the surface *)

Lemma run_app (props : Props) (evs1 evs2 : list Browser.Event) (w : World) :
  Browser.run props (evs1 ++ evs2)%list w
  = Browser.run props evs2 (Browser.run props evs1 w).
Proof.
  revert w. induction evs1 as [| ev evs1 IH]; intros w; cbn; [reflexivity |].
  apply IH.
Qed.

Lemma nothing_selected (w : World) :
  Dom.value (input w) = "" ->
  files (input w) = None \/ files (input w) = Some [].
Proof.
  unfold Dom.value. destruct (files (input w)) as [[| f fs] |]; auto.
  discriminate.
Qed.

(** From a page with the trigger enabled and nothing selected: a click, a
    choice and the completion of the read leave one more call and an idle
    page. *)
Lemma selection_cycle
  (props : Props) (file : File) (rest : list File) (r : string) (w : World) :
  disabled props = false ->
  mounted w = true ->
  Dom.value (input w) = "" ->
  accepted file = true ->
  JS.truthy (Some r) = true ->
  Browser.run props
    [Browser.EvClick; Browser.EvPick (file :: rest);
     Browser.EvLoad (length (readers w)) (Some r)] w
  = mkWorld (mkInput (Some [])) true false (S (picker_opened w))
            (alerts w) (readers w) (calls w ++ [(file, r)]).
Proof.
  intros Hd Hm Hval Hacc Hr.
  cbn [Browser.run Browser.step]. unfold triggerFileUpload. rewrite Hd, Hm.
  unfold Browser.userPicks. cbn [picker_open Dom.click].
  assert (Hfires : Browser.changeFires (file :: rest)
                     (Browser.closePicker (Dom.click w)) = true).
  { unfold Browser.changeFires. cbn [input Browser.closePicker Dom.click].
    destruct (nothing_selected w Hval) as [-> | ->]; reflexivity. }
  rewrite Hfires.
  fold (Browser.dispatchChange (Some (file :: rest))
          (Browser.closePicker (Dom.click w))).
  rewrite dispatchChange_accepted by exact Hacc.
  change (length (readers w))
    with (length (readers (Browser.closePicker (Dom.click w)))).
  rewrite fireLoad_fresh_reader by exact Hr.
  unfold Dom.onImageSelect, Dom.clear_value, Browser.closePicker, Dom.click.
  cbn [input mounted picker_open picker_opened alerts readers calls].
  rewrite Hm. reflexivity.
Qed.

(** X6. The whole path of a selection: with the trigger enabled, the input
    mounted and nothing selected, a click, the choice of an accepted file in
    the surface and the completion of its read add exactly one call of
    [onImageSelect] and leave the page idle (surface closed, input cleared,
    no alert, no read in flight); so the identical file chosen a second
    time goes through the same path again and is reported a second time. *)
Theorem selection_returns_to_idle
  (props : Props) (file : File) (rest : list File) (r r' : string) (w : World) :
  disabled props = false ->
  mounted w = true ->
  Dom.value (input w) = "" ->
  accepted file = true ->
  JS.truthy (Some r) = true ->
  JS.truthy (Some r') = true ->
  let cycle s := [Browser.EvClick; Browser.EvPick (file :: rest);
                  Browser.EvLoad (length (readers w)) (Some s)] in
  let once := Browser.run props (cycle r) w in
  let twice := Browser.run props (cycle r ++ cycle r')%list w in
  once = mkWorld (mkInput (Some [])) true false (S (picker_opened w))
                 (alerts w) (readers w) (calls w ++ [(file, r)])
  /\ calls twice = (calls w ++ [(file, r); (file, r')])%list
  /\ readers twice = readers w
  /\ alerts twice = alerts w
  /\ picker_open twice = false
  /\ picker_opened twice = S (S (picker_opened w))
  /\ Dom.value (input twice) = "".
Proof.
  intros Hd Hm Hval Hacc Hr Hr' cycle once twice.
  assert (Honce : once = mkWorld (mkInput (Some [])) true false
                           (S (picker_opened w)) (alerts w) (readers w)
                           (calls w ++ [(file, r)]))
    by (apply selection_cycle; assumption).
  split; [exact Honce |].
  assert (Htwice : twice = Browser.run props (cycle r') once)
    by (subst twice once; apply run_app).
  rewrite Htwice, Honce. subst cycle. cbv beta.
  change (length (readers w))
    with (length (readers (mkWorld (mkInput (Some [])) true false
                             (S (picker_opened w)) (alerts w) (readers w)
                             (calls w ++ [(file, r)])))).
  rewrite selection_cycle by (assumption || reflexivity).
  cbn. rewrite <- app_assoc. repeat split.
Qed.

Lemma selection_returns_to_idle_witness :
  accepted png_500k = true
  /\ Browser.run (mkProps false)
       [Browser.EvClick; Browser.EvPick [png_500k];
        Browser.EvLoad 0 (Some png_url)] Browser.initial
     = mkWorld (mkInput (Some [])) true false 1 [] [] [(png_500k, png_url)].
Proof.
  split; [reflexivity |].
  exact (proj1 (selection_returns_to_idle (mkProps false) png_500k [] png_url
                  png_url Browser.initial
                  eq_refl eq_refl eq_refl eq_refl eq_refl eq_refl)).
Defined.

(** *** The trigger and its tooltip *)

Lemma hovered_true (hs : list Render.HandlerCall) (isHovered : bool) :
  Render.hovered hs isHovered = true
  <-> (hs = [] /\ isHovered = true)
      \/ last hs Render.OnMouseLeave = Render.OnMouseEnter.
Proof.
  revert isHovered. induction hs as [| call hs IH]; intros isHovered.
  - cbn. split; [intros ->; left; split; reflexivity |].
    intros [[_ H] | H]; [exact H | discriminate H].
  - cbn [Render.hovered]. rewrite IH. destruct hs as [| call' hs].
    + cbn. destruct call; cbn; split.
      * intros _. right. reflexivity.
      * intros _. left. split; reflexivity.
      * intros [[_ H] | H]; discriminate H.
      * intros [[H _] | H]; discriminate H.
    + change (last (call :: call' :: hs) Render.OnMouseLeave)
        with (last (call' :: hs) Render.OnMouseLeave).
      split; (intros [[H _] | H]; [discriminate H | right; exact H]).
Qed.

(** X7. The tooltip "上传图片" is rendered exactly when [disabled] is false
    at the render and the last call React made of the two hover handlers
    was a call of [onMouseEnter]; before any such call, after a call of
    [onMouseLeave], and in every render with [disabled] true it is not
    rendered. *)
Theorem tooltip_iff_enabled_and_entered
  (p : ImageUploadButtonProps) (hs : list Render.HandlerCall) :
  let shown := Render.tooltip (Render.button
                 (Render.render p (Render.hovered hs Render.initialHovered))) in
  (shown <> None
   <-> Render.disabledOf p = false
       /\ last hs Render.OnMouseLeave = Render.OnMouseEnter)
  /\ (forall span, shown = Some span -> Render.span_text span = "上传图片").
Proof.
  intros shown. subst shown. cbn [Render.render Render.button Render.tooltip].
  pose proof (hovered_true hs Render.initialHovered) as Hcalls.
  destruct (Render.hovered hs Render.initialHovered);
    destruct (Render.disabledOf p); cbn [andb negb]; split;
    try (intros span [= <-]; reflexivity); try discriminate.
  - split; [intros H; contradiction | intros [H _]; discriminate H].
  - split; [intros _ | discriminate]. split; [reflexivity |].
    destruct (proj1 Hcalls eq_refl) as [[_ H] | H]; [discriminate H | exact H].
  - split; [intros H; contradiction | intros [H _]; discriminate H].
  - split; [intros H; contradiction |]. intros [_ H].
    assert (Htrue : false = true) by (apply Hcalls; right; exact H).
    discriminate Htrue.
Qed.

Lemma tooltip_iff_enabled_and_entered_witness :
  Render.tooltip (Render.button
    (Render.render (mkButtonProps None None)
       (Render.hovered
          [Render.OnMouseEnter; Render.OnMouseLeave; Render.OnMouseEnter]
          Render.initialHovered))) <> None.
Proof.
  apply (proj1 (tooltip_iff_enabled_and_entered (mkButtonProps None None)
                  [Render.OnMouseEnter; Render.OnMouseLeave;
                   Render.OnMouseEnter])).
  split; reflexivity.
Defined.

Lemma string_app_assoc (a b c : string) : (a ++ b) ++ c = a ++ b ++ c.
Proof.
  induction a as [| x a IH]; cbn; [reflexivity |]. rewrite IH. reflexivity.
Qed.

(** X8. What the trigger shows and what it does agree. With [disabled]
    true the button carries the [disabled] attribute, its class list ends
    with "opacity-30 cursor-not-allowed", no tooltip is rendered whatever
    the hover state, and a click does nothing. With [disabled] false or
    left out the button is enabled, its class list ends with
    "cursor-pointer", and a click opens the file-selection surface of the
    mounted input. In both cases the class list holds the caller's
    [className]. *)
Theorem trigger_presentation_agrees
  (p : ImageUploadButtonProps) (isHovered : bool) (w : World) :
  let b := Render.button (Render.render p isHovered) in
  JS.includes (Render.classNameOf p) (Render.button_className b) = true
  /\ (disabled_prop p = Some true ->
      Render.button_disabled b = true
      /\ (exists classes,
            Render.button_className b
            = classes ++ " opacity-30 cursor-not-allowed")
      /\ Render.tooltip b = None
      /\ triggerFileUpload (Render.propsOf p) w = w)
  /\ (disabled_prop p = None \/ disabled_prop p = Some false ->
      Render.button_disabled b = false
      /\ (exists classes,
            Render.button_className b = classes ++ " cursor-pointer")
      /\ (mounted w = true ->
          triggerFileUpload (Render.propsOf p) w = Dom.click w)).
Proof.
  intros b. subst b.
  cbn [Render.render Render.button Render.button_className
       Render.button_disabled Render.tooltip].
  split; [apply includes_append |]. split.
  - intros Hd. unfold triggerFileUpload, Render.propsOf, Render.disabledOf.
    rewrite Hd. cbn [disabled]. rewrite andb_false_r.
    repeat split. eexists. rewrite <- string_app_assoc.
    rewrite <- (string_app_assoc _ " " "opacity-30 cursor-not-allowed").
    rewrite (string_app_assoc _ " " "opacity-30 cursor-not-allowed").
    reflexivity.
  - intros Hd. unfold triggerFileUpload, Render.propsOf.
    assert (Hoff : Render.disabledOf p = false)
      by (unfold Render.disabledOf; destruct Hd as [-> | ->]; reflexivity).
    rewrite Hoff. cbn [disabled]. split; [reflexivity |]. split.
    + eexists. rewrite <- string_app_assoc.
      rewrite <- (string_app_assoc _ " " "cursor-pointer").
      rewrite (string_app_assoc _ " " "cursor-pointer").
      reflexivity.
    + intros Hm. rewrite Hm. reflexivity.
Qed.

Lemma trigger_presentation_agrees_witness :
  Render.button_disabled
    (Render.button (Render.render (mkButtonProps (Some true) (Some "ml-2")) true))
  = true
  /\ triggerFileUpload (Render.propsOf (mkButtonProps None None)) Browser.initial
     = Dom.click Browser.initial.
Proof.
  split.
  - destruct (trigger_presentation_agrees
                (mkButtonProps (Some true) (Some "ml-2")) true Browser.initial)
      as (_ & Hon & _).
    exact (proj1 (Hon eq_refl)).
  - destruct (trigger_presentation_agrees
                (mkButtonProps None None) false Browser.initial)
      as (_ & _ & Hoff).
    exact (proj2 (proj2 (Hoff (or_introl eq_refl))) eq_refl).
Defined.

(** ** The launch script *)

Section Launch.

Variables (key : string) (h : StartSh.Host) (d : string).
Variable e : list (string * string).

Lemma jobs_of_launch :
  StartSh.jobs (StartSh.trace (snd (StartSh.launch key h d e)))
  = if StartSh.health h =? 0
    then [StartSh.backend key h d e;
          StartSh.frontend key h (StartSh.landing h d) e]
    else [StartSh.backend key h d e].
Proof.
  unfold StartSh.launch, StartSh.start, StartSh.landing.
  destruct (StartSh.health h =? 0); [destruct (StartSh.ui_dir h) |];
    reflexivity.
Qed.

Lemma files_of_launch :
  StartSh.files_written (StartSh.trace (snd (StartSh.launch key h d e)))
  = if StartSh.health h =? 0
    then [(StartSh.resolve (StartSh.landing h d) ".backend.pid",
           StartSh.first_pid h ++ StartSh.newline);
          (StartSh.resolve (StartSh.landing h d) ".frontend.pid",
           StartSh.second_pid h ++ StartSh.newline)]
    else [].
Proof.
  unfold StartSh.launch, StartSh.start, StartSh.landing.
  destruct (StartSh.health h =? 0); [destruct (StartSh.ui_dir h) |];
    reflexivity.
Qed.

Lemma end_of_launch :
  (fst (StartSh.launch key h d e),
   StartSh.waits (StartSh.trace (snd (StartSh.launch key h d e))),
   last (StartSh.trace (snd (StartSh.launch key h d e))) (StartSh.Echo ""))
  = if StartSh.health h =? 0
    then (StartSh.Waiting, true, StartSh.WaitJobs)
    else (StartSh.Exited 1, false,
          StartSh.Echo "❌ 后端服务启动失败，请检查配置").
Proof.
  unfold StartSh.launch, StartSh.start.
  destruct (StartSh.health h =? 0); reflexivity.
Qed.

End Launch.

(** X9. When the health check fails ([curl] exits with a status other
    than 0), the script exits with status 1 after the failure message:
    the backend has been started and is the only job, the frontend is never
    started, no pid file is written and the script does not wait. *)
Theorem failed_health_check_stops_launch
  (key : string) (h : StartSh.Host) (d : string) (e : list (string * string)) :
  StartSh.health h <> 0 ->
  let result := StartSh.launch key h d e in
  fst result = StartSh.Exited 1
  /\ StartSh.jobs (StartSh.trace (snd result)) = [StartSh.backend key h d e]
  /\ StartSh.files_written (StartSh.trace (snd result)) = []
  /\ StartSh.waits (StartSh.trace (snd result)) = false
  /\ last (StartSh.trace (snd result)) (StartSh.Echo "")
     = StartSh.Echo "❌ 后端服务启动失败，请检查配置".
Proof.
  intros Hfail result. subst result.
  pose proof (jobs_of_launch key h d e) as Hjobs.
  pose proof (files_of_launch key h d e) as Hfiles.
  pose proof (end_of_launch key h d e) as Hend.
  apply Z.eqb_neq in Hfail. rewrite Hfail in Hjobs, Hfiles, Hend.
  injection Hend as Hstatus Hwaits Hlast.
  split; [exact Hstatus |]. split; [exact Hjobs |]. split; [exact Hfiles |].
  split; [exact Hwaits | exact Hlast].
Qed.

Lemma failed_health_check_stops_launch_witness :
  StartSh.health StartSh.host_down <> 0
  /\ fst (StartSh.launch "k" StartSh.host_down "/srv/app" []) = StartSh.Exited 1
  /\ map StartSh.pid
       (StartSh.jobs (StartSh.trace
          (snd (StartSh.launch "k" StartSh.host_down "/srv/app" []))))
     = ["4242"].
Proof.
  assert (Hfail : StartSh.health StartSh.host_down <> 0) by discriminate.
  pose proof (failed_health_check_stops_launch "k" StartSh.host_down
                "/srv/app" [] Hfail) as (Hexit & Hjobs & _).
  split; [exact Hfail |]. split; [exact Hexit |].
  rewrite Hjobs. reflexivity.
Defined.



(** X11. Every job the script starts, the backend and the frontend
    alike, finds [TAVILY_API_KEY] set to the exported value in its
    environment, also when the environment the script inherited held
    another value for it. *)
Theorem jobs_inherit_api_key
  (key : string) (h : StartSh.Host) (d : string) (e : list (string * string))
  (j : StartSh.Process) :
  In j (StartSh.jobs (StartSh.trace (snd (StartSh.launch key h d e)))) ->
  StartSh.getenv "TAVILY_API_KEY" (StartSh.env j) = Some key.
Proof.
  rewrite jobs_of_launch.
  destruct (StartSh.health h =? 0); intros Hin;
    repeat (destruct Hin as [<- | Hin]; [reflexivity |]); contradiction.
Qed.

Lemma jobs_inherit_api_key_witness :
  StartSh.getenv "TAVILY_API_KEY"
    (StartSh.env (StartSh.frontend "k" StartSh.host_up
                    "/srv/app/external/aiqtoolkit-opensource-ui"
                    [("TAVILY_API_KEY", "stale")]))
  = Some "k".
Proof.
  assert (Hin : In (StartSh.frontend "k" StartSh.host_up
                      "/srv/app/external/aiqtoolkit-opensource-ui"
                      [("TAVILY_API_KEY", "stale")])
                   (StartSh.jobs (StartSh.trace (snd
                      (StartSh.launch "k" StartSh.host_up "/srv/app"
                         [("TAVILY_API_KEY", "stale")]))))).
  { rewrite jobs_of_launch. right. left. reflexivity. }
  exact (jobs_inherit_api_key "k" StartSh.host_up "/srv/app"
           [("TAVILY_API_KEY", "stale")] _ Hin).
Defined.
